(** * ember-addon-migrator: the addon analysis ([cli/src/analysis/index.js])

    A shallow embedding of the [AddonInfo] class: the facts it stores, the
    getters derived from them, the helper [pathifyNpmName] and the
    asynchronous constructor [AddonInfo.create], followed by the properties
    that the specification states about them. *)

From Stdlib Require Import ZArith Ascii String.
From stdpp Require Import base option strings list gmap.

Local Open Scope string_scope.
Set Warnings "-register-all".

(** ** The fragment of JavaScript the class relies on *)

Module JS.

(** Values produced by [JSON.parse].  A number literal is represented by
    the integer it denotes: the class only tests numbers for truthiness
    (being non-zero) and for strict equality with [2]. *)
Inductive json : Type :=
| JNull
| JBool (b : bool)
| JNum (n : Z)
| JStr (s : string)
| JArr (elements : list json)
| JObj (properties : gmap string json).

(** [Boolean(v)] on a JSON value: [null], [false], [0] and [""] are
    falsy, every array and every object is truthy. *)
Definition truthy (v : json) : bool :=
  match v with
  | JNull => false
  | JBool b => b
  | JNum n => negb (Z.eqb n 0)
  | JStr s => negb (String.eqb s "")
  | JArr _ => true
  | JObj _ => true
  end.

(** [v === 2]. *)
Definition strict_eq_2 (v : json) : bool :=
  match v with
  | JNum n => Z.eqb n 2
  | _ => false
  end.

(** The result of reading a property [o[k]] of a plain object. *)
Inductive lookup_result (V : Type) : Type :=
| Undefined
| Own (v : V)
| Inherited (k : string).
Arguments Undefined {V}.
Arguments Own {V} v.
Arguments Inherited {V} k.

(** The property names that every plain object inherits from
    [Object.prototype]; the inherited values are functions (and, for
    [__proto__], the prototype object itself), all of them truthy. *)
Definition Object_prototype : list string :=
  [ "constructor"; "__defineGetter__"; "__defineSetter__";
    "hasOwnProperty"; "__lookupGetter__"; "__lookupSetter__";
    "isPrototypeOf"; "propertyIsEnumerable"; "toString"; "valueOf";
    "__proto__"; "toLocaleString" ].

(** [o[k]]: an own property wins, then the prototype is consulted. *)
Definition get {V : Type} (o : gmap string V) (k : string) : lookup_result V :=
  match o !! k with
  | Some v => Own v
  | None => if bool_decide (k ∈ Object_prototype) then Inherited k else Undefined
  end.

(** [k in o]. *)
Definition has_property {V : Type} (k : string) (o : gmap string V) : bool :=
  match get o k with
  | Undefined => false
  | _ => true
  end.

(** [Boolean(o[k])], given the truthiness of the stored values. *)
Definition truthy_result {V : Type} (t : V → bool) (r : lookup_result V) : bool :=
  match r with
  | Undefined => false
  | Own v => t v
  | Inherited _ => true
  end.

(** [Boolean(v)] where [v] may be [undefined] ([None]). *)
Definition truthy_opt (v : option json) : bool :=
  match v with
  | Some j => truthy j
  | None => false
  end.

(** [a || b] on possibly undefined values. *)
Definition or_json (a b : option json) : option json :=
  if truthy_opt a then a else b.

(** Truthiness of a string: only [""] is falsy. *)
Definition truthy_string (s : string) : bool := negb (String.eqb s "").

(** [a || b] where [a] is an optional string ([None] is [undefined]). *)
Definition or_else (a : option string) (b : string) : string :=
  match a with
  | Some s => if truthy_string s then s else b
  | None => b
  end.

(** [s.startsWith(p)]. *)
Fixpoint starts_with (p s : string) : bool :=
  match p, s with
  | EmptyString, _ => true
  | String a p', String b s' => Ascii.eqb a b && starts_with p' s'
  | String _ _, EmptyString => false
  end.

(** [s.slice(n)]. *)
Fixpoint slice (n : nat) (s : string) : string :=
  match n, s with
  | O, _ => s
  | S n', String _ s' => slice n' s'
  | S _, EmptyString => EmptyString
  end.

(** [s.replace(pattern, replacement)] with a string pattern: only the
    first occurrence is replaced.  (The replacements used by the class
    contain no [$], so no replacement pattern is expanded.) *)
Fixpoint replace (pattern replacement s : string) : string :=
  if starts_with pattern s then replacement +:+ slice (String.length pattern) s
  else match s with
       | EmptyString => EmptyString
       | String a s' => String a (replace pattern replacement s')
       end.

(** [s.split(c)] for a one-character separator [c]. *)
Fixpoint split (c : Ascii.ascii) (s : string) : list string :=
  match s with
  | EmptyString => [EmptyString]
  | String a s' =>
      if Ascii.eqb a c then EmptyString :: split c s'
      else match split c s' with
           | [] => [String a EmptyString]
           | piece :: pieces => String a piece :: pieces
           end
  end.

(** [a ?? b] where [a] is the result of indexing an array of strings. *)
Definition nullish_else (a : option string) (b : string) : string :=
  match a with
  | Some s => s
  | None => b
  end.

End JS.

(** ** The data the analysis works on *)

(** The run options ([types.ts], interface [Options]).  The four string
    options are left [undefined] by the command line when they are not
    passed, which is [None] here. *)
Module Options.

Record t : Type := make {
  reuseExistingVersions : bool;
  ignoreNewDependencies : bool;
  reuseExistingConfigs : bool;
  analysisOnly : bool;
  addonLocation : option string;
  testAppLocation : option string;
  testAppName : option string;
  directory : option string;
}.

Definition set_addonLocation (v : option string) (o : t) : t :=
  make (reuseExistingVersions o) (ignoreNewDependencies o) (reuseExistingConfigs o)
       (analysisOnly o) v (testAppLocation o) (testAppName o) (directory o).

Definition set_testAppLocation (v : option string) (o : t) : t :=
  make (reuseExistingVersions o) (ignoreNewDependencies o) (reuseExistingConfigs o)
       (analysisOnly o) (addonLocation o) v (testAppName o) (directory o).

Definition set_testAppName (v : option string) (o : t) : t :=
  make (reuseExistingVersions o) (ignoreNewDependencies o) (reuseExistingConfigs o)
       (analysisOnly o) (addonLocation o) (testAppLocation o) v (directory o).

Definition set_directory (v : option string) (o : t) : t :=
  make (reuseExistingVersions o) (ignoreNewDependencies o) (reuseExistingConfigs o)
       (analysisOnly o) (addonLocation o) (testAppLocation o) (testAppName o) v.

End Options.

(** Modelled from the spec: the [PackageJson] type of [./types] is not part
    of the sources.  The manifest is "parsed package metadata: name,
    dependency map, devDependency map, arbitrary addon-specific metadata
    fields (including a version-tagged addon descriptor and a keyword
    list)"; the fields below are the ones the class reads, optional where
    the class guards the access ([?.], [&&], [||]).  The value under the
    ['ember-addon'] key is an object, as the [in] operator applied to it
    requires. *)
Module PackageJson.

Record t : Type := make {
  name : string;
  keywords : option (list string);
  dependencies : option (gmap string string);
  devDependencies : option (gmap string string);
  ember_addon : option (gmap string JS.json);
  ember : option JS.json;
}.

End PackageJson.

Inductive PackageManager : Type := npm | yarn | pnpm.

#[global] Instance PackageManager_eq_dec : EqDecision PackageManager.
Proof. solve_decision. Defined.

(** Modelled from the spec: the [ImportedDependencies] type of [./types] is
    not part of the sources; the spec has it as the set of module names
    imported by the source files. *)
Definition ImportedDependencies : Type := gset string.

(** The ambient process: [process.cwd()] is the only part the class reads. *)
Record Process : Type := { cwd : string }.

(** ** The class [AddonInfo] *)

(** [pathifyNpmName] *)
Definition pathifyNpmName (name : string) : string :=
  JS.replace "/" "__" (JS.replace "@" "" name).

Module AddonInfo.

(** The fields assigned by the constructor; [options] and [tmpDirectory]
    are the private [#options] and [#tmpDirectory]. *)
Record t : Type := new {
  packageJson : PackageJson.t;
  options : Options.t;
  packageManager : PackageManager;
  packageManagerRoot : string;
  gitRoot : string;
  tmpDirectory : string;
  importedDependencies : ImportedDependencies;
}.

Section Getters.

Variable this : t.

(** [{...dependencies, ...devDependencies}]: a later spread overrides an
    earlier one, and spreading [undefined] adds nothing. *)
Definition localDependencies : gmap string string :=
  default ∅ (PackageJson.devDependencies (packageJson this))
  ∪ default ∅ (PackageJson.dependencies (packageJson this)).

Definition localDependencyNames : gset string := dom localDependencies.

Definition name : string := PackageJson.name (packageJson this).

Definition isTS : bool := bool_decide ("typescript" ∈ localDependencyNames).

Definition isYarn : bool := bool_decide (packageManager this = yarn).

Definition isNpm : bool := bool_decide (packageManager this = npm).

Definition isPnpm : bool := bool_decide (packageManager this = pnpm).

Definition isEmber : bool :=
  JS.truthy_opt
    (JS.or_json (JS.JObj <$> PackageJson.ember_addon (packageJson this))
                (PackageJson.ember (packageJson this))).

Definition isAddon : bool :=
  isEmber &&
  match PackageJson.keywords (packageJson this) with
  | Some keywords => bool_decide ("ember-addon" ∈ keywords)
  | None => false
  end.

Definition isV2Addon : bool :=
  if negb isAddon then false
  else
    match PackageJson.ember_addon (packageJson this) with
    | Some emberAddon =>
        if JS.has_property "version" emberAddon then
          match JS.get emberAddon "version" with
          | JS.Own version => JS.strict_eq_2 version
          | _ => false
          end
        else false
    | None => false
    end.

Definition isV1Addon : bool := isAddon && negb isV2Addon.

Definition isBiggerMonorepo : bool :=
  negb (String.eqb (packageManagerRoot this) (gitRoot this)).

Definition directory (process : Process) : string :=
  JS.or_else (Options.directory (options this)) (cwd process).

Definition tmpLocation : string := tmpDirectory this.

Definition addonLocation : string :=
  if isBiggerMonorepo then
    JS.or_else (Options.addonLocation (options this)) "pacakge"
  else
    JS.or_else (Options.addonLocation (options this))
               (JS.nullish_else (JS.split "/"%char name !! 1%nat) name).

Definition testAppLocation : string :=
  JS.or_else (Options.testAppLocation (options this)) "test-app".

Definition testAppName : string :=
  if isBiggerMonorepo then
    JS.or_else (Options.testAppName (options this))
               ("test-app-for-" +:+ pathifyNpmName name)
  else
    JS.or_else (Options.testAppName (options this)) "test-app".

Definition hasDependency (dep : string) : bool :=
  match PackageJson.dependencies (packageJson this) with
  | Some dependencies => JS.truthy_result JS.truthy_string (JS.get dependencies dep)
  | None => false
  end.

Definition hasDevDependency (dep : string) : bool :=
  match PackageJson.devDependencies (packageJson this) with
  | Some devDependencies => JS.truthy_result JS.truthy_string (JS.get devDependencies dep)
  | None => false
  end.

End Getters.

End AddonInfo.

(** ** Construction: [AddonInfo.create] *)

(** The collaborators that [create] calls, in the order it calls them. *)
Inductive Gatherer : Type :=
| PackageJsonRead
| FindRoot
| GuessPackageManager
| AnalyzeImports
| CreateTmp.

(** What a call of a collaborator does: it returns, or it throws. *)
Inductive outcome (A : Type) : Type :=
| Returns (a : A)
| Throws (reason : string).
Arguments Returns {A} a.
Arguments Throws {A} reason.

(** The result of [guessPackageManager]. *)
Record GuessedPackageManager : Type := {
  manager : PackageManager;
  root : string;
}.

(** Modelled from the spec: the collaborators ([packageJson.read] of
    ember-apply, [findRoot], [guessPackageManager], [analyzeImports],
    [createTmp]) are not part of the sources.  By their contracts the
    manifest reader, the repository-root finder and the package-manager
    detector return a result or fail; the import analyzer never fails and
    the scratch-directory provisioner returns a directory. *)
Record World : Type := {
  process : Process;
  packageJson_read : outcome PackageJson.t;
  findRoot : outcome string;
  guessPackageManager : string → Options.t → outcome GuessedPackageManager;
  analyzeImports : string → ImportedDependencies;
  createTmp : string;
}.

(** What [create] can raise. *)
Inductive Exception : Type :=
| Thrown (reason : string)
| Failure (message : string)
| NothingToDoError (message : string).

Inductive completion (A : Type) : Type :=
| Ok (a : A)
| Raise (e : Exception).
Arguments Ok {A} a.
Arguments Raise {A} e.

(** An asynchronous computation, run to completion: it extends the log of
    collaborator calls and completes with a value or an exception. *)
Definition Async (A : Type) : Type := list Gatherer → list Gatherer * completion A.

#[global] Instance Async_ret : MRet Async := λ A a log, (log, Ok a).

#[global] Instance Async_bind : MBind Async := λ A B k m log,
  match m log with
  | (log', Ok a) => k a log'
  | (log', Raise e) => (log', Raise e)
  end.

Definition throw {A : Type} (e : Exception) : Async A := λ log, (log, Raise e).

(** Calling a collaborator records the call. *)
Definition call {A : Type} (g : Gatherer) (o : outcome A) : Async A := λ log,
  ((log ++ [g])%list, match o with Returns a => Ok a | Throws reason => Raise (Thrown reason) end).

(** Modelled from the spec: [tryOrFail] of [./error.js] is not part of the
    sources.  "Each gatherer failure is wrapped with a specific, actionable
    message and propagated immediately": a failure of the wrapped call is
    replaced by a failure carrying [message]. *)
Definition tryOrFail {A : Type} (fn : Async A) (message : string) : Async A := λ log,
  match fn log with
  | (log', Ok a) => (log', Ok a)
  | (log', Raise _) => (log', Raise (Failure message))
  end.

Definition manifest_message : string :=
  "Could not read the package.json. " +:+
  "Please either run ember-addon-migrator from a package directory, or specify a path to a package directory via --directory".

Definition git_message : string :=
  "Could not find git root. Only git is supported at this time.".

Definition package_manager_message : string :=
  "Could not determine package manager. Only npm, yarn, and pnpm are supported at this time.".

Definition nothing_to_do_message (name : string) : string :=
  name +:+ " is already a V2 addon. Migration will stop.".

(** [AddonInfo.create] *)
Definition create (w : World) (options : Options.t) : Async AddonInfo.t :=
  pkgJson ← tryOrFail (call PackageJsonRead (packageJson_read w)) manifest_message;
  repoRoot ← tryOrFail (call FindRoot (findRoot w)) git_message;
  packageManager ←
    tryOrFail (call GuessPackageManager (guessPackageManager w repoRoot options))
              package_manager_message;
  importedDependencies ←
    call AnalyzeImports (Returns (analyzeImports w (cwd (process w))));
  tmpDirectory ← call CreateTmp (Returns (createTmp w));
  let info :=
    AddonInfo.new pkgJson options (manager packageManager) (root packageManager)
                  repoRoot tmpDirectory importedDependencies in
  if AddonInfo.isV2Addon info then
    throw (NothingToDoError (nothing_to_do_message (AddonInfo.name info)))
  else mret info.

(** Running [create] from an empty call log. *)
Definition run_create (w : World) (options : Options.t)
  : list Gatherer * completion AddonInfo.t :=
  create w options [].

(** The error taxonomy of the spec.  The three wrapped failures are told
    apart by the message that [create] gives to [tryOrFail]. *)
Inductive Taxonomy : Type :=
| ManifestReadError
| RepoDiscoveryError
| PackageManagerError
| NothingToDo.

Definition classify (e : Exception) : option Taxonomy :=
  match e with
  | Thrown _ => None
  | Failure message =>
      if String.eqb message manifest_message then Some ManifestReadError
      else if String.eqb message git_message then Some RepoDiscoveryError
      else if String.eqb message package_manager_message then Some PackageManagerError
      else None
  | NothingToDoError _ => Some NothingToDo
  end.

(** ** The query surface *)

Inductive Query : Type :=
| QName | QIsTS | QIsYarn | QIsNpm | QIsPnpm
| QIsEmber | QIsAddon | QIsV1Addon | QIsV2Addon | QIsBiggerMonorepo
| QDirectory | QTmpLocation | QAddonLocation | QTestAppLocation | QTestAppName
| QHasDependency (dep : string)
| QHasDevDependency (dep : string).

Inductive Answer : Type :=
| ABool (b : bool)
| AString (s : string).

(** Evaluating a getter (or one of the two arrow functions) of [info] while
    the process is in state [p]. *)
Definition ask (q : Query) (p : Process) (info : AddonInfo.t) : Answer :=
  match q with
  | QName => AString (AddonInfo.name info)
  | QIsTS => ABool (AddonInfo.isTS info)
  | QIsYarn => ABool (AddonInfo.isYarn info)
  | QIsNpm => ABool (AddonInfo.isNpm info)
  | QIsPnpm => ABool (AddonInfo.isPnpm info)
  | QIsEmber => ABool (AddonInfo.isEmber info)
  | QIsAddon => ABool (AddonInfo.isAddon info)
  | QIsV1Addon => ABool (AddonInfo.isV1Addon info)
  | QIsV2Addon => ABool (AddonInfo.isV2Addon info)
  | QIsBiggerMonorepo => ABool (AddonInfo.isBiggerMonorepo info)
  | QDirectory => AString (AddonInfo.directory info p)
  | QTmpLocation => AString (AddonInfo.tmpLocation info)
  | QAddonLocation => AString (AddonInfo.addonLocation info)
  | QTestAppLocation => AString (AddonInfo.testAppLocation info)
  | QTestAppName => AString (AddonInfo.testAppName info)
  | QHasDependency dep => ABool (AddonInfo.hasDependency info dep)
  | QHasDevDependency dep => ABool (AddonInfo.hasDevDependency info dep)
  end.

(** ** Vocabulary of the specification *)

(** The character [c] occurs in [s]. *)
Fixpoint occurs (c : Ascii.ascii) (s : string) : bool :=
  match s with
  | EmptyString => false
  | String a s' => Ascii.eqb a c || occurs c s'
  end.

(** The scoped package name [@scope/name]. *)
Definition scoped (scope name : string) : string :=
  "@" +:+ scope +:+ "/" +:+ name.

(** The version tag of the addon-metadata block, when there is one. *)
Definition version_tag (pj : PackageJson.t) : option JS.json :=
  PackageJson.ember_addon pj ≫= λ emberAddon, emberAddon !! "version".

(** The manifest lists the ['ember-addon'] keyword. *)
Definition has_addon_keyword (pj : PackageJson.t) : Prop :=
  ∃ keywords, PackageJson.keywords pj = Some keywords ∧ "ember-addon" ∈ keywords.

(** [x] is a key of the manifest's [dependencies] map. *)
Definition dependency_key (pj : PackageJson.t) (x : string) : Prop :=
  ∃ dependencies,
    PackageJson.dependencies pj = Some dependencies ∧ is_Some (dependencies !! x).

(** An option was supplied with a value that JavaScript treats as true. *)
Definition supplied (o : option string) : Prop :=
  ∃ s, o = Some s ∧ s ≠ "".

(** The collaborator whose call fails first, if any does. *)
Definition failing_step (w : World) (options : Options.t) : option Gatherer :=
  match packageJson_read w with
  | Throws _ => Some PackageJsonRead
  | Returns _ =>
      match findRoot w with
      | Throws _ => Some FindRoot
      | Returns repoRoot =>
          match guessPackageManager w repoRoot options with
          | Throws _ => Some GuessPackageManager
          | Returns _ => None
          end
      end
  end.

(** The calls [create] makes up to and including the call of [g]. *)
Definition calls_through (g : Gatherer) : list Gatherer :=
  match g with
  | PackageJsonRead => [PackageJsonRead]
  | FindRoot => [PackageJsonRead; FindRoot]
  | GuessPackageManager => [PackageJsonRead; FindRoot; GuessPackageManager]
  | AnalyzeImports => [PackageJsonRead; FindRoot; GuessPackageManager; AnalyzeImports]
  | CreateTmp =>
      [PackageJsonRead; FindRoot; GuessPackageManager; AnalyzeImports; CreateTmp]
  end.

(** The taxonomy error that the spec attaches to each fallible step. *)
Definition error_of_step (g : Gatherer) : option Taxonomy :=
  match g with
  | PackageJsonRead => Some ManifestReadError
  | FindRoot => Some RepoDiscoveryError
  | GuessPackageManager => Some PackageManagerError
  | AnalyzeImports | CreateTmp => None
  end.

(** ** The fixture helper of the test suite ([tests/helpers.ts]) *)

(** The directory name under which [adoptFixture] stores a package: the
    name sanitized by [name.replace('@', '').replace('/', '__')], then
    [-] and the version. *)
Definition fixtureDirectoryName (name version : string) : string :=
  JS.replace "/" "__" (JS.replace "@" "" name) +:+ "-" +:+ version.

(** ** Sample manifests, objects and worlds *)

Definition no_options : Options.t :=
  Options.make false false false false None None None None.

(** A v1 addon: Ember-ness through an addon-metadata block without version
    tag; one of its dependencies has the empty version range. *)
Definition v1_manifest : PackageJson.t :=
  PackageJson.make "@scope/name" (Some ["ember"; "ember-addon"])
    (Some {[ "ember-cli-babel" := "^7.26.0"; "x" := "" ]})
    (Some {[ "typescript" := "^5.0.0" ]})
    (Some {[ "configPath" := JS.JStr "tests/dummy/config" ]})
    None.

(** The same package once migrated. *)
Definition v2_manifest : PackageJson.t :=
  PackageJson.make "@scope/name" (Some ["ember"; "ember-addon"])
    (Some {[ "@embroider/addon-shim" := "^1.0.0" ]})
    None
    (Some {[ "version" := JS.JNum 2; "type" := JS.JStr "addon" ]})
    None.

(** The addon is the whole repository. *)
Definition solo_info : AddonInfo.t :=
  AddonInfo.new v1_manifest no_options pnpm "/repo" "/repo" "/tmp/migrate-1" ∅.

(** The addon is one package of a repository managed from its parent. *)
Definition monorepo_info : AddonInfo.t :=
  AddonInfo.new v1_manifest no_options pnpm "/work" "/work/repo" "/tmp/migrate-1" ∅.

Definition directed_info : AddonInfo.t :=
  AddonInfo.new v1_manifest (Options.set_directory (Some "/repo/addon") no_options)
                yarn "/repo" "/repo" "/tmp/migrate-1" ∅.

Definition v2_world : World :=
  {| process := {| cwd := "/repo" |};
     packageJson_read := Returns v2_manifest;
     findRoot := Returns "/repo";
     guessPackageManager := λ repoRoot _, Returns {| manager := pnpm; root := repoRoot |};
     analyzeImports := λ _, ∅;
     createTmp := "/tmp/migrate-1" |}.

Definition no_git_world : World :=
  {| process := {| cwd := "/repo" |};
     packageJson_read := Returns v1_manifest;
     findRoot := Throws "fatal: not a git repository";
     guessPackageManager := λ repoRoot _, Returns {| manager := pnpm; root := repoRoot |};
     analyzeImports := λ _, ∅;
     createTmp := "/tmp/migrate-1" |}.

(** A package that is not an Ember package at all. *)
Definition plain_manifest : PackageJson.t :=
  PackageJson.make "left-pad" (Some ["string"; "pad"])
    (Some {[ "typescript" := "" ]}) None None (Some (JS.JBool false)).

(** A package in the v2 format whose keyword list lacks ['ember-addon']. *)
Definition unlisted_v2_manifest : PackageJson.t :=
  PackageJson.make "@scope/name" (Some ["ember"])
    None None (Some {[ "version" := JS.JNum 2 ]}) None.

Definition plain_info : AddonInfo.t :=
  AddonInfo.new plain_manifest no_options npm "/repo" "/repo" "/tmp/migrate-1" ∅.

Definition overriding_info : AddonInfo.t :=
  AddonInfo.new v1_manifest
    (Options.make false false false false
       (Some "addon") (Some "tests") (Some "my-tests") (Some "/repo/addon"))
    npm "/work" "/work/repo" "/tmp/migrate-1" ∅.

Definition v1_world : World :=
  {| process := {| cwd := "/repo" |};
     packageJson_read := Returns v1_manifest;
     findRoot := Returns "/repo";
     guessPackageManager := λ repoRoot _, Returns {| manager := pnpm; root := repoRoot |};
     analyzeImports := λ _, {[ "ember-cli-babel" ]};
     createTmp := "/tmp/migrate-1" |}.

Definition unlisted_v2_world : World :=
  {| process := {| cwd := "/repo" |};
     packageJson_read := Returns unlisted_v2_manifest;
     findRoot := Returns "/repo";
     guessPackageManager := λ repoRoot _, Returns {| manager := yarn; root := repoRoot |};
     analyzeImports := λ _, ∅;
     createTmp := "/tmp/migrate-2" |}.

(** ** Strings *)

Section StringFacts.

Implicit Types (s t : string) (c : Ascii.ascii).

Lemma truthy_string_true s : JS.truthy_string s = true ↔ s ≠ "".
Proof.
  unfold JS.truthy_string. rewrite negb_true_iff.
  destruct (String.eqb_spec s ""); split; congruence.
Qed.

Lemma or_else_None d : JS.or_else None d = d.
Proof. reflexivity. Qed.

Lemma or_else_empty d : JS.or_else (Some "") d = d.
Proof. reflexivity. Qed.

Lemma or_else_supplied o d : supplied o → ∃ s, o = Some s ∧ JS.or_else o d = s.
Proof.
  intros (s & -> & Hs). exists s. split; [done|].
  unfold JS.or_else. by apply truthy_string_true in Hs as ->.
Qed.

Lemma split_no_separator c s : occurs c s = false → JS.split c s = [s].
Proof.
  induction s as [|a s IH]; simpl; [done|].
  intros [Ha Hs]%orb_false_iff. rewrite Ha, (IH Hs). done.
Qed.

Lemma split_at_separator c s t :
  occurs c s = false → JS.split c (s +:+ String c t) = s :: JS.split c t.
Proof.
  induction s as [|a s IH]; simpl.
  - intros _. by rewrite Ascii.eqb_refl.
  - intros [Ha Hs]%orb_false_iff. rewrite Ha, (IH Hs). done.
Qed.

Lemma replace_at_separator c r s t :
  occurs c s = false →
  JS.replace (String c "") r (s +:+ String c t) = s +:+ r +:+ t.
Proof.
  induction s as [|a s IH]; simpl.
  - intros _. by rewrite Ascii.eqb_refl.
  - intros [Ha Hs]%orb_false_iff.
    rewrite Ascii.eqb_sym, Ha. simpl.
    change (String a s +:+ r +:+ t) with (String a (s +:+ r +:+ t)).
    f_equal. by apply IH.
Qed.

Lemma replace_no_occurrence c r s :
  occurs c s = false → JS.replace (String c "") r s = s.
Proof.
  induction s as [|a s IH]; simpl; [done|].
  intros [Ha Hs]%orb_false_iff.
  rewrite Ascii.eqb_sym, Ha. simpl. f_equal. by apply IH.
Qed.

Lemma pathifyNpmName_scoped scope name :
  occurs "/" scope = false →
  pathifyNpmName (scoped scope name) = scope +:+ "__" +:+ name.
Proof.
  intros Hscope. unfold pathifyNpmName, scoped.
  change (JS.replace "@" "" ("@" +:+ scope +:+ "/" +:+ name))
    with (scope +:+ String "/" name).
  by apply (replace_at_separator "/").
Qed.

Lemma pathifyNpmName_plain name :
  occurs "@" name = false → occurs "/" name = false → pathifyNpmName name = name.
Proof.
  intros Hat Hslash. unfold pathifyNpmName.
  change "@" with (String "@"%char "") at 1.
  rewrite (replace_no_occurrence "@") by done.
  by apply (replace_no_occurrence "/").
Qed.

(** The example of the doc comment of [testAppName]. *)
Example pathifyNpmName_limber_ui : pathifyNpmName "@limber/ui" = "limber__ui".
Proof. reflexivity. Qed.

(** Only the first separator is replaced. *)
Example pathifyNpmName_first_separator : pathifyNpmName "@a/b/c" = "a__b/c".
Proof. reflexivity. Qed.

Example split_segments : JS.split "/" "@scope/name" = ["@scope"; "name"].
Proof. reflexivity. Qed.

End StringFacts.

(** ** Topology and target paths *)

Section Paths.

Implicit Types (info : AddonInfo.t) (p : Process).

(** C3: [isBiggerMonorepo] is true exactly when the package-manager root
    and the repository root are different strings; the comparison is on the
    value of the two paths. *)
Theorem isBiggerMonorepo_iff_roots_differ info :
  AddonInfo.isBiggerMonorepo info = true
  ↔ AddonInfo.packageManagerRoot info ≠ AddonInfo.gitRoot info.
Proof.
  unfold AddonInfo.isBiggerMonorepo. rewrite negb_true_iff.
  destruct (String.eqb_spec (AddonInfo.packageManagerRoot info) (AddonInfo.gitRoot info));
    split; congruence.
Qed.

(** Two paths assembled differently but equal as strings are the same root. *)
Example isBiggerMonorepo_same_path :
  AddonInfo.isBiggerMonorepo
    (AddonInfo.new v1_manifest no_options npm ("/repo" +:+ "/addon") "/repo/addon"
                   "/tmp/migrate-1" ∅) = false.
Proof. reflexivity. Qed.

(** C5: in a bigger monorepo, without an [addonLocation] option, the getter
    answers the misspelt literal ["pacakge"], which is not ["package"]. *)
Theorem addonLocation_bigger_monorepo_default info :
  AddonInfo.isBiggerMonorepo info = true →
  Options.addonLocation (AddonInfo.options info) = None →
  AddonInfo.addonLocation info = "pacakge"
  ∧ AddonInfo.addonLocation info ≠ "package".
Proof.
  intros Hbig Hopt. unfold AddonInfo.addonLocation.
  rewrite Hbig, Hopt, or_else_None. split; [reflexivity | discriminate].
Qed.

(** C6: without a [testAppName] option, a bigger monorepo names the test
    app ["test-app-for-"] followed by the sanitized package name, where
    [@scope/name] is sanitized to [scope__name] and a name without scope
    marker and separator is kept; a solo repo names it ["test-app"]. *)
Theorem testAppName_default info :
  Options.testAppName (AddonInfo.options info) = None →
  (AddonInfo.isBiggerMonorepo info = true →
     AddonInfo.testAppName info = "test-app-for-" +:+ pathifyNpmName (AddonInfo.name info)
     ∧ (∀ scope name,
          occurs "/" scope = false →
          AddonInfo.name info = scoped scope name →
          AddonInfo.testAppName info = "test-app-for-" +:+ scope +:+ "__" +:+ name)
     ∧ (AddonInfo.name info = "@scope/name" →
          AddonInfo.testAppName info = "test-app-for-scope__name")
     ∧ (occurs "@" (AddonInfo.name info) = false →
        occurs "/" (AddonInfo.name info) = false →
          AddonInfo.testAppName info = "test-app-for-" +:+ AddonInfo.name info))
  ∧ (AddonInfo.isBiggerMonorepo info = false →
     AddonInfo.testAppName info = "test-app").
Proof.
  intros Hopt. unfold AddonInfo.testAppName. rewrite Hopt, !or_else_None.
  split; intros ->; [|done].
  repeat split.
  - intros scope name Hscope ->. by rewrite pathifyNpmName_scoped.
  - by intros ->.
  - intros Hat Hslash. by rewrite pathifyNpmName_plain.
Qed.

(** C8: in a solo repo, without an [addonLocation] option, the addon goes
    to the segment after the scope separator when the package name is
    [@scope/name], and to the full package name when it is unscoped. *)
Theorem addonLocation_solo_default info :
  AddonInfo.isBiggerMonorepo info = false →
  Options.addonLocation (AddonInfo.options info) = None →
  (∀ scope name,
     occurs "/" scope = false → occurs "/" name = false →
     AddonInfo.name info = scoped scope name →
     AddonInfo.addonLocation info = name)
  ∧ (occurs "/" (AddonInfo.name info) = false →
     AddonInfo.addonLocation info = AddonInfo.name info).
Proof.
  intros Hsolo Hopt. unfold AddonInfo.addonLocation.
  rewrite Hsolo, Hopt, or_else_None. split.
  - intros scope name Hscope Hname ->. unfold scoped.
    change ("@" +:+ scope +:+ "/" +:+ name)
      with (String "@" scope +:+ String "/" name).
    rewrite split_at_separator, split_no_separator; [done..|].
    simpl. by rewrite Hscope.
  - intros Hname. by rewrite split_no_separator.
Qed.

(** C10: an option supplied as the empty string is treated like an absent
    one by each of the four path getters, which then answer their
    defaults. *)
Theorem empty_option_is_absent
    (pj : PackageJson.t) (o : Options.t) (pm : PackageManager)
    (pmRoot repoRoot tmp : string) (imports : ImportedDependencies) p :
  let info o' := AddonInfo.new pj o' pm pmRoot repoRoot tmp imports in
  (AddonInfo.directory (info (Options.set_directory (Some "") o)) p
     = AddonInfo.directory (info (Options.set_directory None o)) p
   ∧ AddonInfo.directory (info (Options.set_directory (Some "") o)) p = cwd p)
  ∧ AddonInfo.addonLocation (info (Options.set_addonLocation (Some "") o))
     = AddonInfo.addonLocation (info (Options.set_addonLocation None o))
  ∧ (AddonInfo.testAppLocation (info (Options.set_testAppLocation (Some "") o))
       = AddonInfo.testAppLocation (info (Options.set_testAppLocation None o))
     ∧ AddonInfo.testAppLocation (info (Options.set_testAppLocation (Some "") o))
       = "test-app")
  ∧ AddonInfo.testAppName (info (Options.set_testAppName (Some "") o))
     = AddonInfo.testAppName (info (Options.set_testAppName None o)).
Proof.
  intros info. repeat split.
Qed.

End Paths.

(** ** Classification of the manifest *)

Section Classification.

Implicit Types (info : AddonInfo.t) (pj : PackageJson.t) (v : JS.json).

Lemma strict_eq_2_true v : JS.strict_eq_2 v = true ↔ v = JS.JNum 2.
Proof.
  destruct v as [| |n| | |]; simpl; try (split; [discriminate|congruence]).
  rewrite Z.eqb_eq. split; congruence.
Qed.

Lemma get_version (o : gmap string JS.json) :
  JS.get o "version"
  = match o !! "version" with Some v => JS.Own v | None => JS.Undefined end.
Proof. unfold JS.get. by destruct (o !! "version"). Qed.

(** Ember-ness: the ['ember-addon'] block is present or the ['ember'] value
    is truthy. *)
Lemma isEmber_true info :
  AddonInfo.isEmber info = true
  ↔ is_Some (PackageJson.ember_addon (AddonInfo.packageJson info))
    ∨ JS.truthy_opt (PackageJson.ember (AddonInfo.packageJson info)) = true.
Proof.
  unfold AddonInfo.isEmber, JS.or_json.
  destruct (PackageJson.ember_addon _) as [block|]; simpl.
  - split; [by left; eexists | done].
  - split; [by right | by intros [[? [=]]|]].
Qed.

Lemma isAddon_true info :
  AddonInfo.isAddon info = true
  ↔ AddonInfo.isEmber info = true ∧ has_addon_keyword (AddonInfo.packageJson info).
Proof.
  unfold AddonInfo.isAddon, has_addon_keyword. rewrite andb_true_iff.
  destruct (PackageJson.keywords _) as [keywords|].
  - rewrite bool_decide_eq_true. split.
    + intros [? ?]. split; [done|]. by exists keywords.
    + intros [? (? & [= <-] & ?)]. done.
  - split; [by intros [_ [=]] | by intros [_ (? & [=] & _)]].
Qed.

(** A v2 addon is an addon whose metadata block carries the version tag 2. *)
Lemma isV2Addon_true info :
  AddonInfo.isV2Addon info = true
  ↔ AddonInfo.isAddon info = true
    ∧ version_tag (AddonInfo.packageJson info) = Some (JS.JNum 2).
Proof.
  unfold AddonInfo.isV2Addon, version_tag, JS.has_property.
  destruct (AddonInfo.isAddon info); simpl; [|by split; [|intros []]].
  destruct (PackageJson.ember_addon _) as [emberAddon|]; simpl;
    [|by split; [|intros []]].
  rewrite get_version. destruct (emberAddon !! "version") as [v|]; simpl.
  - rewrite strict_eq_2_true. split; [by intros -> | by intros [_ [= ->]]].
  - by split; [|intros []].
Qed.

Lemma isV2Addon_false info :
  AddonInfo.isV2Addon info = false
  ↔ AddonInfo.isAddon info = false
    ∨ version_tag (AddonInfo.packageJson info) ≠ Some (JS.JNum 2).
Proof.
  rewrite <-(not_true_iff_false (AddonInfo.isV2Addon info)), isV2Addon_true.
  destruct (AddonInfo.isAddon info); split.
  - intros Hnot. right. intros Htag. by apply Hnot.
  - intros [[=]|Htag] [_ ?]. by apply Htag.
  - by left.
  - by intros _ [[=] _].
Qed.

End Classification.

(** ** Runs of [create] *)

Section Construction.

Implicit Types (w : World) (options : Options.t) (info : AddonInfo.t).

Ltac run_pipeline :=
  unfold run_create, create, mbind, Async_bind, tryOrFail, call, throw, mret, Async_ret.

Lemma run_create_manifest_fails w options reason :
  packageJson_read w = Throws reason →
  run_create w options = (calls_through PackageJsonRead, Raise (Failure manifest_message)).
Proof. intros H. run_pipeline. by rewrite H. Qed.

Lemma run_create_git_fails w options pj reason :
  packageJson_read w = Returns pj →
  findRoot w = Throws reason →
  run_create w options = (calls_through FindRoot, Raise (Failure git_message)).
Proof. intros H1 H2. run_pipeline. by rewrite H1, H2. Qed.

Lemma run_create_package_manager_fails w options pj repoRoot reason :
  packageJson_read w = Returns pj →
  findRoot w = Returns repoRoot →
  guessPackageManager w repoRoot options = Throws reason →
  run_create w options
  = (calls_through GuessPackageManager, Raise (Failure package_manager_message)).
Proof. intros H1 H2 H3. run_pipeline. rewrite H1, H2. simpl. by rewrite H3. Qed.

(** When the three fallible collaborators return, the outcome is decided
    by the classification of the assembled object. *)
Lemma run_create_gathered w options pj repoRoot pm :
  packageJson_read w = Returns pj →
  findRoot w = Returns repoRoot →
  guessPackageManager w repoRoot options = Returns pm →
  let info :=
    AddonInfo.new pj options (manager pm) (root pm) repoRoot (createTmp w)
                  (analyzeImports w (cwd (process w))) in
  run_create w options
  = (calls_through CreateTmp,
     if AddonInfo.isV2Addon info
     then Raise (NothingToDoError (nothing_to_do_message (AddonInfo.name info)))
     else Ok info).
Proof.
  intros H1 H2 H3 info. run_pipeline. rewrite H1, H2. simpl. rewrite H3. simpl.
  fold info. by destruct (AddonInfo.isV2Addon info).
Qed.

(** Whatever [create] returns carries the manifest that was read and is
    not a v2 addon. *)
Lemma run_create_returns w options info :
  (run_create w options).2 = Ok info →
  packageJson_read w = Returns (AddonInfo.packageJson info)
  ∧ AddonInfo.isV2Addon info = false.
Proof.
  destruct (packageJson_read w) as [pj|r1] eqn:H1;
    [|by rewrite (run_create_manifest_fails _ _ _ H1)].
  destruct (findRoot w) as [repoRoot|r2] eqn:H2;
    [|by rewrite (run_create_git_fails _ _ _ _ H1 H2)].
  destruct (guessPackageManager w repoRoot options) as [pm|r3] eqn:H3;
    [|by rewrite (run_create_package_manager_fails _ _ _ _ _ H1 H2 H3)].
  rewrite (run_create_gathered _ _ _ _ _ H1 H2 H3). simpl.
  destruct (AddonInfo.isV2Addon _) eqn:Hv2; [done|].
  by intros [= <-].
Qed.

(** Every exception raised by [create] belongs to the taxonomy. *)
Lemma run_create_raises w options e :
  (run_create w options).2 = Raise e → is_Some (classify e).
Proof.
  destruct (packageJson_read w) as [pj|r1] eqn:H1;
    [|rewrite (run_create_manifest_fails _ _ _ H1); by intros [= <-]].
  destruct (findRoot w) as [repoRoot|r2] eqn:H2;
    [|rewrite (run_create_git_fails _ _ _ _ H1 H2); by intros [= <-]].
  destruct (guessPackageManager w repoRoot options) as [pm|r3] eqn:H3;
    [|rewrite (run_create_package_manager_fails _ _ _ _ _ H1 H2 H3); by intros [= <-]].
  rewrite (run_create_gathered _ _ _ _ _ H1 H2 H3). simpl.
  destruct (AddonInfo.isV2Addon _); [by intros [= <-] | done].
Qed.

(** C1: a manifest with the ['ember-addon'] keyword and the version tag 2
    in its addon-metadata block (which gives it Ember-ness) is classified
    v2 and not v1; once the collaborators have returned, [create] raises
    [NothingToDoError] with a message that starts with the package name;
    no run of [create] that reads this manifest returns an object. *)
Theorem v2_addon_is_nothing_to_do (pj : PackageJson.t) :
  has_addon_keyword pj →
  version_tag pj = Some (JS.JNum 2) →
  (∀ info, AddonInfo.packageJson info = pj →
     AddonInfo.isEmber info = true
     ∧ AddonInfo.isV2Addon info = true
     ∧ AddonInfo.isV1Addon info = false)
  ∧ (∀ w options repoRoot pm,
       packageJson_read w = Returns pj →
       findRoot w = Returns repoRoot →
       guessPackageManager w repoRoot options = Returns pm →
       (run_create w options).2
       = Raise (NothingToDoError
                  (PackageJson.name pj +:+ " is already a V2 addon. Migration will stop.")))
  ∧ (∀ w options info,
       packageJson_read w = Returns pj → (run_create w options).2 ≠ Ok info).
Proof.
  intros Hkeyword Htag.
  assert (Hinfo : ∀ info, AddonInfo.packageJson info = pj →
            AddonInfo.isEmber info = true ∧ AddonInfo.isV2Addon info = true).
  { intros info <-.
    assert (AddonInfo.isEmber info = true) as Hember.
    { apply isEmber_true. left. unfold version_tag in Htag.
      by destruct (PackageJson.ember_addon _). }
    split; [done|]. apply isV2Addon_true. split; [|done].
    by apply isAddon_true. }
  split; [|split].
  - intros info Hpj. destruct (Hinfo info Hpj) as [Hember Hv2].
    repeat split; [done..|]. unfold AddonInfo.isV1Addon.
    rewrite Hv2. apply andb_false_r.
  - intros w options repoRoot pm H1 H2 H3.
    rewrite (run_create_gathered _ _ _ _ _ H1 H2 H3). simpl.
    set (info := AddonInfo.new _ _ _ _ _ _ _).
    by rewrite (proj2 (Hinfo info eq_refl)).
  - intros w options info H1 Hok.
    apply run_create_returns in Hok as [Hread Hv1].
    rewrite H1 in Hread. injection Hread as Hpj.
    by rewrite (proj2 (Hinfo info (eq_sym Hpj))) in Hv1.
Qed.

(** C7: a manifest with Ember-ness and the ['ember-addon'] keyword whose
    addon-metadata block has no version tag, or one that is not 2, is
    classified v1 and not v2. *)
Theorem v1_addon_classification info :
  AddonInfo.isEmber info = true →
  has_addon_keyword (AddonInfo.packageJson info) →
  version_tag (AddonInfo.packageJson info) ≠ Some (JS.JNum 2) →
  AddonInfo.isV1Addon info = true ∧ AddonInfo.isV2Addon info = false.
Proof.
  intros Hember Hkeyword Htag.
  assert (AddonInfo.isV2Addon info = false) as Hv2
    by (apply isV2Addon_false; by right).
  split; [|done]. unfold AddonInfo.isV1Addon. rewrite Hv2, andb_true_r.
  by apply isAddon_true.
Qed.

(** C2: when a collaborator fails, [create] raises the taxonomy error of
    that step, the calls made are exactly those up to the failing one, so
    that no later collaborator is called, and no object is returned. *)
Theorem create_fails_fast w options (g : Gatherer) :
  failing_step w options = Some g →
  ∃ e kind,
    run_create w options = (calls_through g, Raise e)
    ∧ classify e = Some kind
    ∧ error_of_step g = Some kind
    ∧ (∀ kind', classify e = Some kind' → kind' = kind)
    ∧ (∀ g', g' ∈ (run_create w options).1 → g' ∈ calls_through g)
    ∧ (∀ info, (run_create w options).2 ≠ Ok info).
Proof.
  unfold failing_step. intros Hfail.
  destruct (packageJson_read w) as [pj|r1] eqn:H1.
  - destruct (findRoot w) as [repoRoot|r2] eqn:H2.
    + destruct (guessPackageManager w repoRoot options) as [pm|r3] eqn:H3; [done|].
      injection Hfail as <-.
      exists (Failure package_manager_message), PackageManagerError.
      rewrite (run_create_package_manager_fails _ _ _ _ _ H1 H2 H3).
      repeat split; [by intros ? [= <-] | done..].
    + injection Hfail as <-.
      exists (Failure git_message), RepoDiscoveryError.
      rewrite (run_create_git_fails _ _ _ _ H1 H2).
      repeat split; [by intros ? [= <-] | done..].
  - injection Hfail as <-.
    exists (Failure manifest_message), ManifestReadError.
    rewrite (run_create_manifest_fails _ _ _ H1).
    repeat split; [by intros ? [= <-] | done..].
Qed.

End Construction.

(** ** Dependency predicates *)

Section Dependencies.

Implicit Types (info : AddonInfo.t) (x : string).

(** [Boolean(map[x])] for a map of strings. *)
Lemma truthy_get_true (m : gmap string string) x :
  JS.truthy_result JS.truthy_string (JS.get m x) = true
  ↔ (∃ v, m !! x = Some v ∧ v ≠ "") ∨ (m !! x = None ∧ x ∈ JS.Object_prototype).
Proof.
  unfold JS.get. destruct (m !! x) as [v|]; simpl.
  - rewrite truthy_string_true. split.
    + intros Hv. left. by exists v.
    + by intros [(? & [= <-] & ?)|[[=] _]].
  - case_bool_decide; simpl.
    + split; [by right | done].
    + split; [done | by intros [(? & [=] & _)|[_ ?]]].
Qed.

(** C4, as the code has it: [hasDependency(x)] is true exactly when the
    manifest has a [dependencies] map and reading [x] from it gives a
    truthy value, that is, [x] is a key with a non-empty value, or [x] is
    not a key and names a property inherited from [Object.prototype]; it
    is determined by the [dependencies] map alone, as [hasDevDependency(x)]
    is by the [devDependencies] map alone. *)
Theorem hasDependency_truthy_entry info x :
  (AddonInfo.hasDependency info x = true
   ↔ ∃ dependencies,
       PackageJson.dependencies (AddonInfo.packageJson info) = Some dependencies
       ∧ ((∃ v, dependencies !! x = Some v ∧ v ≠ "")
          ∨ (dependencies !! x = None ∧ x ∈ JS.Object_prototype)))
  ∧ (∀ info',
       PackageJson.dependencies (AddonInfo.packageJson info')
       = PackageJson.dependencies (AddonInfo.packageJson info) →
       AddonInfo.hasDependency info' x = AddonInfo.hasDependency info x)
  ∧ (∀ info',
       PackageJson.devDependencies (AddonInfo.packageJson info')
       = PackageJson.devDependencies (AddonInfo.packageJson info) →
       AddonInfo.hasDevDependency info' x = AddonInfo.hasDevDependency info x).
Proof.
  unfold AddonInfo.hasDependency, AddonInfo.hasDevDependency. split; [|split].
  - destruct (PackageJson.dependencies _) as [dependencies|].
    + rewrite truthy_get_true. split.
      * intros H. by exists dependencies.
      * by intros (? & [= <-] & H).
    + split; [done | by intros (? & [=] & _)].
  - by intros info' ->.
  - by intros info' ->.
Qed.

End Dependencies.

(** ** Purity of the query surface *)

Section Purity.

Implicit Types (info : AddonInfo.t) (p : Process) (q : Query).

(** C9, as the code has it: every query other than [directory] answers the
    same in every state of the process, and so does [directory] when the
    [directory] option is supplied; without the option [directory] answers
    the working directory of the process at the time of the call. *)
Theorem queries_depend_on_stored_facts q info p1 p2 :
  (q = QDirectory → supplied (Options.directory (AddonInfo.options info))) →
  ask q p1 info = ask q p2 info
  ∧ (¬ supplied (Options.directory (AddonInfo.options info)) →
     ask QDirectory p1 info = AString (cwd p1)).
Proof.
  intros Hdir. split.
  - destruct q; try reflexivity. simpl. unfold AddonInfo.directory.
    destruct (or_else_supplied _ (cwd p1) (Hdir eq_refl)) as (s & Hs & ->).
    destruct (or_else_supplied _ (cwd p2) (Hdir eq_refl)) as (s' & Hs' & ->).
    congruence.
  - intros Hnot. simpl. unfold AddonInfo.directory, JS.or_else. f_equal.
    destruct (Options.directory _) as [s|]; [|done].
    destruct (JS.truthy_string s) eqn:Hs; [|done].
    exfalso. apply Hnot. exists s. split; [done|]. by apply truthy_string_true.
Qed.

End Purity.

(** ** The properties on the sample data *)

Lemma v2_addon_is_nothing_to_do_witness :
  has_addon_keyword v2_manifest
  ∧ version_tag v2_manifest = Some (JS.JNum 2)
  ∧ (run_create v2_world no_options).2
    = Raise (NothingToDoError "@scope/name is already a V2 addon. Migration will stop.").
Proof.
  assert (has_addon_keyword v2_manifest) as Hkeyword.
  { exists ["ember"; "ember-addon"]. split; [reflexivity|]. right. left. }
  assert (version_tag v2_manifest = Some (JS.JNum 2)) as Htag by (vm_compute; reflexivity).
  split; [exact Hkeyword|]. split; [exact Htag|].
  destruct (v2_addon_is_nothing_to_do v2_manifest Hkeyword Htag) as (_ & Hcreate & _).
  exact (Hcreate v2_world no_options "/repo" {| manager := pnpm; root := "/repo" |}
           eq_refl eq_refl eq_refl).
Defined.

Lemma create_fails_fast_witness :
  failing_step no_git_world no_options = Some FindRoot
  ∧ ∃ e kind,
      run_create no_git_world no_options = ([PackageJsonRead; FindRoot], Raise e)
      ∧ classify e = Some kind
      ∧ error_of_step FindRoot = Some kind
      ∧ (∀ kind', classify e = Some kind' → kind' = kind)
      ∧ (∀ g', g' ∈ (run_create no_git_world no_options).1 → g' ∈ [PackageJsonRead; FindRoot])
      ∧ (∀ info, (run_create no_git_world no_options).2 ≠ Ok info).
Proof.
  split; [reflexivity|].
  apply (create_fails_fast no_git_world no_options FindRoot). reflexivity.
Defined.

Lemma addonLocation_bigger_monorepo_default_witness :
  AddonInfo.isBiggerMonorepo monorepo_info = true
  ∧ Options.addonLocation (AddonInfo.options monorepo_info) = None
  ∧ AddonInfo.addonLocation monorepo_info = "pacakge"
  ∧ AddonInfo.addonLocation monorepo_info ≠ "package".
Proof.
  split; [reflexivity|]. split; [reflexivity|].
  apply (addonLocation_bigger_monorepo_default monorepo_info); reflexivity.
Defined.

Lemma testAppName_default_witness :
  Options.testAppName (AddonInfo.options monorepo_info) = None
  ∧ AddonInfo.testAppName monorepo_info = "test-app-for-scope__name"
  ∧ AddonInfo.testAppName solo_info = "test-app".
Proof.
  split; [reflexivity|]. split.
  - destruct (testAppName_default monorepo_info eq_refl) as [Hbig _].
    destruct (Hbig eq_refl) as (_ & _ & Hscoped & _).
    apply Hscoped. reflexivity.
  - destruct (testAppName_default solo_info eq_refl) as [_ Hsolo].
    apply Hsolo. reflexivity.
Defined.

Lemma v1_addon_classification_witness :
  AddonInfo.isEmber solo_info = true
  ∧ has_addon_keyword (AddonInfo.packageJson solo_info)
  ∧ version_tag (AddonInfo.packageJson solo_info) ≠ Some (JS.JNum 2)
  ∧ AddonInfo.isV1Addon solo_info = true
  ∧ AddonInfo.isV2Addon solo_info = false.
Proof.
  assert (has_addon_keyword (AddonInfo.packageJson solo_info)) as Hkeyword.
  { exists ["ember"; "ember-addon"]. split; [reflexivity|]. right. left. }
  assert (version_tag (AddonInfo.packageJson solo_info) ≠ Some (JS.JNum 2)) as Htag
    by (vm_compute; discriminate).
  split; [reflexivity|]. split; [exact Hkeyword|]. split; [exact Htag|].
  apply (v1_addon_classification solo_info); [reflexivity | exact Hkeyword | exact Htag].
Defined.

Lemma addonLocation_solo_default_witness :
  AddonInfo.isBiggerMonorepo solo_info = false
  ∧ Options.addonLocation (AddonInfo.options solo_info) = None
  ∧ AddonInfo.addonLocation solo_info = "name".
Proof.
  split; [reflexivity|]. split; [reflexivity|].
  destruct (addonLocation_solo_default solo_info eq_refl eq_refl) as [Hscoped _].
  apply (Hscoped "scope" "name"); reflexivity.
Defined.

Lemma hasDependency_truthy_entry_witness :
  AddonInfo.hasDependency solo_info "ember-cli-babel" = true
  ∧ AddonInfo.hasDependency monorepo_info "typescript"
    = AddonInfo.hasDependency solo_info "typescript".
Proof.
  destruct (hasDependency_truthy_entry solo_info "ember-cli-babel") as [[_ Hyes] _].
  destruct (hasDependency_truthy_entry solo_info "typescript") as (_ & Hsame & _).
  split.
  - apply Hyes. eexists. split; [reflexivity|]. left.
    exists "^7.26.0". split; [vm_compute; reflexivity | discriminate].
  - apply Hsame. reflexivity.
Defined.

Lemma queries_depend_on_stored_facts_witness :
  (QDirectory = QDirectory → supplied (Options.directory (AddonInfo.options directed_info)))
  ∧ ask QDirectory {| cwd := "/repo/addon" |} directed_info
    = ask QDirectory {| cwd := "/" |} directed_info.
Proof.
  assert (supplied (Options.directory (AddonInfo.options directed_info))) as Hdir.
  { exists "/repo/addon". split; [reflexivity | discriminate]. }
  split; [intros _; exact Hdir|].
  exact (proj1 (queries_depend_on_stored_facts QDirectory directed_info
                  {| cwd := "/repo/addon" |} {| cwd := "/" |} (λ _, Hdir))).
Defined.

(** ** Where the code departs from the specification *)

(** C4: a key with the empty version range is not reported, and a name
    inherited from [Object.prototype] is reported without being a key. *)
Lemma hasDependency_is_not_key_presence :
  ¬ (AddonInfo.hasDependency solo_info "x" = true ↔ dependency_key v1_manifest "x")
  ∧ ¬ (AddonInfo.hasDependency solo_info "constructor" = true
       ↔ dependency_key v1_manifest "constructor").
Proof.
  split.
  - intros [_ Hkey].
    assert (AddonInfo.hasDependency solo_info "x" = true) as Hx.
    { apply Hkey. eexists. split; [reflexivity|]. exists "". vm_compute. reflexivity. }
    vm_compute in Hx. discriminate.
  - intros [Hkey _].
    assert (AddonInfo.hasDependency solo_info "constructor" = true) as Hconstructor
      by (vm_compute; reflexivity).
    destruct (Hkey Hconstructor) as (dependencies & [= <-] & v & Hv).
    vm_compute in Hv. discriminate.
Qed.

(** C9: the same object answers [directory] differently after the process
    has changed its working directory. *)
Lemma directory_follows_the_process :
  ask QDirectory {| cwd := "/repo" |} solo_info
  ≠ ask QDirectory {| cwd := "/repo/addon" |} solo_info.
Proof. vm_compute. discriminate. Qed.

(** ** Further properties of the classification *)

Section MoreClassification.

Implicit Types (info : AddonInfo.t) (pj : PackageJson.t).

(** X1: a manifest without ['ember-addon'] block and with an absent or
    falsy ['ember'] value has no Ember-ness, and is then neither an addon,
    nor a v1 addon, nor a v2 addon, whatever its keywords. *)
Theorem not_ember_is_unclassified info :
  PackageJson.ember_addon (AddonInfo.packageJson info) = None →
  JS.truthy_opt (PackageJson.ember (AddonInfo.packageJson info)) = false →
  AddonInfo.isEmber info = false
  ∧ AddonInfo.isAddon info = false
  ∧ AddonInfo.isV1Addon info = false
  ∧ AddonInfo.isV2Addon info = false.
Proof.
  intros Hblock Hember.
  assert (AddonInfo.isEmber info = false) as Hno.
  { apply not_true_iff_false. rewrite isEmber_true, Hblock, Hember.
    by intros [[? [=]]|[=]]. }
  assert (AddonInfo.isAddon info = false) as Haddon
    by (unfold AddonInfo.isAddon; by rewrite Hno).
  repeat split; [done..| |].
  - unfold AddonInfo.isV1Addon. by rewrite Haddon.
  - apply isV2Addon_false. by left.
Qed.

(** X2: the v1 and v2 classifications split the addons in two: a context
    is an addon exactly when it is a v1 or a v2 addon, and it is never
    both. *)
Theorem addon_is_v1_or_v2 info :
  AddonInfo.isAddon info = AddonInfo.isV1Addon info || AddonInfo.isV2Addon info
  ∧ AddonInfo.isV1Addon info && AddonInfo.isV2Addon info = false.
Proof.
  unfold AddonInfo.isV1Addon.
  destruct (AddonInfo.isV2Addon info) eqn:Hv2.
  - apply isV2Addon_true in Hv2 as [-> _]. done.
  - by destruct (AddonInfo.isAddon info).
Qed.

(** X3: a manifest whose keyword list is absent or lacks ['ember-addon'] is
    no addon, even when its metadata block carries the version tag 2; once
    the collaborators have returned, [create] returns the object instead
    of raising [NothingToDoError]. *)
Theorem unlisted_addon_is_accepted w options pj repoRoot pm :
  ¬ has_addon_keyword pj →
  packageJson_read w = Returns pj →
  findRoot w = Returns repoRoot →
  guessPackageManager w repoRoot options = Returns pm →
  let info :=
    AddonInfo.new pj options (manager pm) (root pm) repoRoot (createTmp w)
                  (analyzeImports w (cwd (process w))) in
  AddonInfo.isAddon info = false
  ∧ AddonInfo.isV2Addon info = false
  ∧ (run_create w options).2 = Ok info.
Proof.
  intros Hkeyword H1 H2 H3 info.
  assert (AddonInfo.isAddon info = false) as Haddon.
  { apply not_true_iff_false. rewrite isAddon_true. by intros [_ ?]. }
  assert (AddonInfo.isV2Addon info = false) as Hv2
    by (apply isV2Addon_false; by left).
  repeat split; [done..|].
  rewrite (run_create_gathered _ _ _ _ _ H1 H2 H3). simpl.
  fold info. by rewrite Hv2.
Qed.

(** X4: exactly one of the three package-manager predicates holds. *)
Theorem one_package_manager info :
  (AddonInfo.isNpm info = true ∧ AddonInfo.isYarn info = false
   ∧ AddonInfo.isPnpm info = false)
  ∨ (AddonInfo.isNpm info = false ∧ AddonInfo.isYarn info = true
     ∧ AddonInfo.isPnpm info = false)
  ∨ (AddonInfo.isNpm info = false ∧ AddonInfo.isYarn info = false
     ∧ AddonInfo.isPnpm info = true).
Proof.
  unfold AddonInfo.isNpm, AddonInfo.isYarn, AddonInfo.isPnpm.
  destruct (AddonInfo.packageManager info); [left | right; left | right; right];
    repeat split.
Qed.

End MoreClassification.

(** ** Further properties of the dependency predicates *)

Section MoreDependencies.

Implicit Types (info : AddonInfo.t) (x : string).

(** The keys of a possibly absent map. *)
Lemma elem_of_dom_default (m : option (gmap string string)) x :
  x ∈ dom (default ∅ m) ↔ ∃ d, m = Some d ∧ is_Some (d !! x).
Proof.
  rewrite elem_of_dom. destruct m as [d|]; simpl.
  - split; [intros ?; by exists d | by intros (? & [= <-] & ?)].
  - rewrite lookup_empty. split; [by intros [? [=]] | by intros (? & [=] & _)].
Qed.

(** X5: the local dependency names are the keys of [dependencies] together
    with the keys of [devDependencies]; so [isTS] holds exactly when
    ["typescript"] is a key of either map, whatever its value, and it holds
    in particular whenever [hasDependency] or [hasDevDependency] reports
    ["typescript"]. *)
Theorem isTS_iff_listed info :
  (∀ x, x ∈ AddonInfo.localDependencyNames info
        ↔ (∃ d, PackageJson.dependencies (AddonInfo.packageJson info) = Some d
                ∧ is_Some (d !! x))
          ∨ (∃ d, PackageJson.devDependencies (AddonInfo.packageJson info) = Some d
                  ∧ is_Some (d !! x)))
  ∧ (AddonInfo.isTS info = true
     ↔ (∃ d, PackageJson.dependencies (AddonInfo.packageJson info) = Some d
             ∧ is_Some (d !! "typescript"))
       ∨ (∃ d, PackageJson.devDependencies (AddonInfo.packageJson info) = Some d
               ∧ is_Some (d !! "typescript")))
  ∧ (AddonInfo.hasDependency info "typescript" || AddonInfo.hasDevDependency info "typescript"
       = true → AddonInfo.isTS info = true).
Proof.
  assert (∀ x, x ∈ AddonInfo.localDependencyNames info
        ↔ (∃ d, PackageJson.dependencies (AddonInfo.packageJson info) = Some d
                ∧ is_Some (d !! x))
          ∨ (∃ d, PackageJson.devDependencies (AddonInfo.packageJson info) = Some d
                  ∧ is_Some (d !! x))) as Hnames.
  { intros x. unfold AddonInfo.localDependencyNames, AddonInfo.localDependencies.
    rewrite dom_union, elem_of_union, !elem_of_dom_default. tauto. }
  assert ("typescript" ∉ JS.Object_prototype) as Hproto.
  { apply (bool_decide_eq_false_1 _). vm_compute. reflexivity. }
  split; [exact Hnames|]. split.
  - unfold AddonInfo.isTS. by rewrite bool_decide_eq_true, Hnames.
  - unfold AddonInfo.isTS, AddonInfo.hasDependency, AddonInfo.hasDevDependency.
    rewrite bool_decide_eq_true, Hnames, orb_true_iff.
    intros [H|H]; [left|right].
    + destruct (PackageJson.dependencies _) as [d|]; [|done].
      apply truthy_get_true in H as [(v & Hv & _)|[_ ?]]; [|done].
      exists d. split; [done|]. by exists v.
    + destruct (PackageJson.devDependencies _) as [d|]; [|done].
      apply truthy_get_true in H as [(v & Hv & _)|[_ ?]]; [|done].
      exists d. split; [done|]. by exists v.
Qed.

(** X6: [hasDevDependency(x)] is true exactly when the manifest has a
    [devDependencies] map and reading [x] from it gives a truthy value: [x]
    is a key with a non-empty value, or [x] is not a key and names a
    property inherited from [Object.prototype].  Without a
    [devDependencies] map it is false for every name. *)
Theorem hasDevDependency_truthy_entry info x :
  (AddonInfo.hasDevDependency info x = true
   ↔ ∃ devDependencies,
       PackageJson.devDependencies (AddonInfo.packageJson info) = Some devDependencies
       ∧ ((∃ v, devDependencies !! x = Some v ∧ v ≠ "")
          ∨ (devDependencies !! x = None ∧ x ∈ JS.Object_prototype)))
  ∧ (PackageJson.devDependencies (AddonInfo.packageJson info) = None →
     AddonInfo.hasDevDependency info x = false).
Proof.
  unfold AddonInfo.hasDevDependency. split.
  - destruct (PackageJson.devDependencies _) as [devDependencies|].
    + rewrite truthy_get_true. split.
      * intros H. by exists devDependencies.
      * by intros (? & [= <-] & H).
    + split; [done | by intros (? & [=] & _)].
  - by intros ->.
Qed.

End MoreDependencies.

(** ** Further properties of the target paths *)

Section MorePaths.

Implicit Types (info : AddonInfo.t) (p : Process) (s t : string) (c : Ascii.ascii).

Lemma occurs_app c s t : occurs c (s +:+ t) = occurs c s || occurs c t.
Proof.
  induction s as [|a s IH]; [done|].
  change (String a s +:+ t) with (String a (s +:+ t)). simpl.
  by rewrite IH, orb_assoc.
Qed.

Lemma append_assoc s t u : (s +:+ t) +:+ u = s +:+ t +:+ u.
Proof.
  induction s as [|a s IH]; [done|].
  change (String a (s +:+ t) +:+ u = String a (s +:+ t +:+ u)).
  change (String a ((s +:+ t) +:+ u) = String a (s +:+ t +:+ u)).
  by rewrite IH.
Qed.

Lemma split_nonempty c s : JS.split c s ≠ [].
Proof.
  destruct s as [|a s]; simpl; [done|].
  destruct (Ascii.eqb a c); [done|]. by destruct (JS.split c s).
Qed.

(** No piece of a split contains the separator. *)
Lemma split_pieces c s piece :
  piece ∈ JS.split c s → occurs c piece = false.
Proof.
  revert piece. induction s as [|a s IH]; simpl; intros piece.
  - by intros ->%list_elem_of_singleton.
  - destruct (Ascii.eqb a c) eqn:Ha.
    + intros [->|?]%elem_of_cons; [done | by apply IH].
    + destruct (JS.split c s) as [|first rest].
      * intros ->%list_elem_of_singleton. simpl. by rewrite Ha.
      * intros [->|?]%elem_of_cons.
        -- simpl. rewrite Ha. apply IH. by left.
        -- apply IH. by right.
Qed.

(** A split with a single piece comes from a string without separator. *)
Lemma split_single c s : JS.split c s !! 1%nat = None → occurs c s = false.
Proof.
  induction s as [|a s IH]; simpl; [done|].
  destruct (Ascii.eqb a c) eqn:Ha; simpl.
  - pose proof (split_nonempty c s). by destruct (JS.split c s).
  - destruct (JS.split c s) as [|first rest]; [done|]. simpl in *.
    destruct rest; [|done]. intros _. by apply IH.
Qed.

(** X7: an option supplied with a non-empty value is returned verbatim by
    its getter, whatever the topology of the repository, the package name
    and the working directory of the process. *)
Theorem supplied_option_wins info p s :
  s ≠ "" →
  (Options.directory (AddonInfo.options info) = Some s →
   AddonInfo.directory info p = s)
  ∧ (Options.addonLocation (AddonInfo.options info) = Some s →
     AddonInfo.addonLocation info = s)
  ∧ (Options.testAppLocation (AddonInfo.options info) = Some s →
     AddonInfo.testAppLocation info = s)
  ∧ (Options.testAppName (AddonInfo.options info) = Some s →
     AddonInfo.testAppName info = s).
Proof.
  intros Hs%truthy_string_true.
  unfold AddonInfo.directory, AddonInfo.addonLocation, AddonInfo.testAppLocation,
    AddonInfo.testAppName.
  repeat split; intros ->; simpl; rewrite ?Hs;
    try destruct (AddonInfo.isBiggerMonorepo info); simpl; by rewrite ?Hs.
Qed.

(** X8: in a solo repo, without an [addonLocation] option, the addon
    location never contains the separator [/]: it is a single path
    segment, whatever the package name. *)
Theorem addonLocation_solo_is_one_segment info :
  AddonInfo.isBiggerMonorepo info = false →
  Options.addonLocation (AddonInfo.options info) = None →
  occurs "/" (AddonInfo.addonLocation info) = false.
Proof.
  intros Hsolo Hopt. unfold AddonInfo.addonLocation.
  rewrite Hsolo, Hopt, or_else_None.
  destruct (JS.split "/" (AddonInfo.name info) !! 1%nat) as [segment|] eqn:Hsegment; simpl.
  - apply (split_pieces "/" (AddonInfo.name info)).
    by apply list_elem_of_lookup_2 in Hsegment.
  - by apply split_single.
Qed.

(** X9: in a bigger monorepo, without a [testAppName] option, the test-app
    name generated for a package [@scope/name] whose scope and name contain
    neither [@] nor [/] contains neither of the two characters. *)
Theorem testAppName_default_is_plain info scope name :
  AddonInfo.isBiggerMonorepo info = true →
  Options.testAppName (AddonInfo.options info) = None →
  AddonInfo.name info = scoped scope name →
  occurs "/" scope = false → occurs "@" scope = false →
  occurs "/" name = false → occurs "@" name = false →
  occurs "/" (AddonInfo.testAppName info) = false
  ∧ occurs "@" (AddonInfo.testAppName info) = false.
Proof.
  intros Hbig Hopt Hname Hs1 Hs2 Hn1 Hn2. unfold AddonInfo.testAppName.
  rewrite Hbig, Hopt, or_else_None, Hname, pathifyNpmName_scoped by done.
  rewrite !occurs_app, Hs1, Hs2, Hn1, Hn2. done.
Qed.

(** X10: for a package [@scope/name] whose scope has no [/], [adoptFixture]
    stores the fixture under [scope__name-version]; when scope, name and
    version have no [/], that directory name has none either. *)
Theorem fixtureDirectoryName_scoped scope name version :
  occurs "/" scope = false →
  fixtureDirectoryName (scoped scope name) version
  = scope +:+ "__" +:+ name +:+ "-" +:+ version
  ∧ (occurs "/" name = false → occurs "/" version = false →
     occurs "/" (fixtureDirectoryName (scoped scope name) version) = false).
Proof.
  intros Hscope.
  assert (fixtureDirectoryName (scoped scope name) version
          = scope +:+ "__" +:+ name +:+ "-" +:+ version) as ->.
  { unfold fixtureDirectoryName. fold (pathifyNpmName (scoped scope name)).
    rewrite pathifyNpmName_scoped by done.
    by rewrite append_assoc. }
  split; [done|]. intros Hname Hversion.
  rewrite !occurs_app, Hscope, Hname, Hversion. done.
Qed.

End MorePaths.

(** ** Further properties of [create] *)

Section MoreConstruction.

Implicit Types (w : World) (options : Options.t) (info : AddonInfo.t).

(** X11: when the three fallible collaborators return and the assembled
    object is not a v2 addon, [create] calls the five collaborators once
    each, in order, and returns the object that stores exactly what they
    gave: the manifest read, the caller's options, the manager and root
    guessed from the repository root, the repository root, the scratch
    directory and the imports of the working directory.  An object is
    returned in no other case. *)
Theorem create_returns_gathered_facts w options pj repoRoot pm :
  packageJson_read w = Returns pj →
  findRoot w = Returns repoRoot →
  guessPackageManager w repoRoot options = Returns pm →
  let info :=
    AddonInfo.new pj options (manager pm) (root pm) repoRoot (createTmp w)
                  (analyzeImports w (cwd (process w))) in
  (AddonInfo.isV2Addon info = false →
   run_create w options
   = ([PackageJsonRead; FindRoot; GuessPackageManager; AnalyzeImports; CreateTmp],
      Ok info))
  ∧ (∀ info', (run_create w options).2 = Ok info' →
       info' = info ∧ AddonInfo.isV2Addon info = false).
Proof.
  intros H1 H2 H3 info.
  rewrite (run_create_gathered _ _ _ _ _ H1 H2 H3). fold info. split.
  - by intros ->.
  - simpl. destruct (AddonInfo.isV2Addon info); [done|]. by intros ? [= <-].
Qed.

(** X12: [create] raises [NothingToDoError] only at the end of the
    pipeline: all five collaborators have been called (the scratch
    directory exists), the manifest read has the ['ember-addon'] keyword
    and the version tag 2, and the message is the package name followed
    by the fixed text. *)
Theorem nothing_to_do_comes_last w options message :
  (run_create w options).2 = Raise (NothingToDoError message) →
  (run_create w options).1
  = [PackageJsonRead; FindRoot; GuessPackageManager; AnalyzeImports; CreateTmp]
  ∧ ∃ pj,
      packageJson_read w = Returns pj
      ∧ has_addon_keyword pj
      ∧ version_tag pj = Some (JS.JNum 2)
      ∧ message = PackageJson.name pj +:+ " is already a V2 addon. Migration will stop.".
Proof.
  destruct (packageJson_read w) as [pj|r1] eqn:H1;
    [|by rewrite (run_create_manifest_fails _ _ _ H1)].
  destruct (findRoot w) as [repoRoot|r2] eqn:H2;
    [|by rewrite (run_create_git_fails _ _ _ _ H1 H2)].
  destruct (guessPackageManager w repoRoot options) as [pm|r3] eqn:H3;
    [|by rewrite (run_create_package_manager_fails _ _ _ _ _ H1 H2 H3)].
  rewrite (run_create_gathered _ _ _ _ _ H1 H2 H3). simpl.
  destruct (AddonInfo.isV2Addon _) eqn:Hv2; [|done].
  intros [= <-]. split; [done|]. exists pj.
  apply isV2Addon_true in Hv2 as [[_ Hkeyword]%isAddon_true Htag].
  done.
Qed.

End MoreConstruction.

(** ** The further properties on the sample data *)

Lemma not_ember_is_unclassified_witness :
  PackageJson.ember_addon (AddonInfo.packageJson plain_info) = None
  ∧ JS.truthy_opt (PackageJson.ember (AddonInfo.packageJson plain_info)) = false
  ∧ AddonInfo.isEmber plain_info = false
  ∧ AddonInfo.isAddon plain_info = false
  ∧ AddonInfo.isV1Addon plain_info = false
  ∧ AddonInfo.isV2Addon plain_info = false.
Proof.
  split; [reflexivity|]. split; [reflexivity|].
  apply (not_ember_is_unclassified plain_info); reflexivity.
Defined.

Lemma unlisted_addon_is_accepted_witness :
  ¬ has_addon_keyword unlisted_v2_manifest
  ∧ version_tag unlisted_v2_manifest = Some (JS.JNum 2)
  ∧ (run_create unlisted_v2_world no_options).2
    = Ok (AddonInfo.new unlisted_v2_manifest no_options yarn "/repo" "/repo"
                        "/tmp/migrate-2" ∅).
Proof.
  assert (¬ has_addon_keyword unlisted_v2_manifest) as Hkeyword.
  { intros (keywords & [= <-] & Hin).
    apply list_elem_of_singleton in Hin. discriminate. }
  split; [exact Hkeyword|]. split; [vm_compute; reflexivity|].
  exact (proj2 (proj2 (unlisted_addon_is_accepted unlisted_v2_world no_options
           unlisted_v2_manifest "/repo" {| manager := yarn; root := "/repo" |}
           Hkeyword eq_refl eq_refl eq_refl))).
Defined.

Lemma isTS_iff_listed_witness :
  AddonInfo.hasDependency plain_info "typescript" = false
  ∧ AddonInfo.isTS plain_info = true
  ∧ AddonInfo.isTS solo_info = true.
Proof.
  split; [vm_compute; reflexivity|]. split.
  - destruct (isTS_iff_listed plain_info) as (_ & [_ Hlisted] & _).
    apply Hlisted. left. eexists. split; [reflexivity|].
    exists "". vm_compute. reflexivity.
  - destruct (isTS_iff_listed solo_info) as (_ & _ & Hreported).
    apply Hreported. vm_compute. reflexivity.
Defined.

Lemma hasDevDependency_truthy_entry_witness :
  AddonInfo.hasDevDependency solo_info "typescript" = true
  ∧ AddonInfo.hasDevDependency plain_info "typescript" = false.
Proof.
  split.
  - destruct (hasDevDependency_truthy_entry solo_info "typescript") as [[_ Hyes] _].
    apply Hyes. eexists. split; [reflexivity|]. left.
    exists "^5.0.0". split; [vm_compute; reflexivity | discriminate].
  - destruct (hasDevDependency_truthy_entry plain_info "typescript") as [_ Hno].
    apply Hno. reflexivity.
Defined.

Lemma supplied_option_wins_witness :
  "my-tests" ≠ ""
  ∧ Options.testAppName (AddonInfo.options overriding_info) = Some "my-tests"
  ∧ AddonInfo.testAppName overriding_info = "my-tests".
Proof.
  assert ("my-tests" ≠ "") as Hs by discriminate.
  split; [exact Hs|]. split; [reflexivity|].
  destruct (supplied_option_wins overriding_info {| cwd := "/" |} "my-tests" Hs)
    as (_ & _ & _ & Hname).
  apply Hname. reflexivity.
Defined.

Lemma addonLocation_solo_is_one_segment_witness :
  AddonInfo.isBiggerMonorepo solo_info = false
  ∧ Options.addonLocation (AddonInfo.options solo_info) = None
  ∧ occurs "/" (AddonInfo.addonLocation solo_info) = false.
Proof.
  split; [reflexivity|]. split; [reflexivity|].
  apply (addonLocation_solo_is_one_segment solo_info); reflexivity.
Defined.

Lemma testAppName_default_is_plain_witness :
  AddonInfo.isBiggerMonorepo monorepo_info = true
  ∧ Options.testAppName (AddonInfo.options monorepo_info) = None
  ∧ AddonInfo.name monorepo_info = scoped "scope" "name"
  ∧ occurs "/" (AddonInfo.testAppName monorepo_info) = false
  ∧ occurs "@" (AddonInfo.testAppName monorepo_info) = false.
Proof.
  split; [reflexivity|]. split; [reflexivity|]. split; [reflexivity|].
  apply (testAppName_default_is_plain monorepo_info "scope" "name"); reflexivity.
Defined.

Lemma fixtureDirectoryName_scoped_witness :
  occurs "/" "limber" = false
  ∧ fixtureDirectoryName "@limber/ui" "1.2.3" = "limber__ui-1.2.3".
Proof.
  split; [reflexivity|].
  exact (proj1 (fixtureDirectoryName_scoped "limber" "ui" "1.2.3" eq_refl)).
Defined.

Lemma create_returns_gathered_facts_witness :
  packageJson_read v1_world = Returns v1_manifest
  ∧ findRoot v1_world = Returns "/repo"
  ∧ run_create v1_world no_options
    = ([PackageJsonRead; FindRoot; GuessPackageManager; AnalyzeImports; CreateTmp],
       Ok (AddonInfo.new v1_manifest no_options pnpm "/repo" "/repo" "/tmp/migrate-1"
                         {[ "ember-cli-babel" ]})).
Proof.
  split; [reflexivity|]. split; [reflexivity|].
  apply (create_returns_gathered_facts v1_world no_options v1_manifest "/repo"
           {| manager := pnpm; root := "/repo" |} eq_refl eq_refl eq_refl).
  vm_compute. reflexivity.
Defined.

Lemma nothing_to_do_comes_last_witness :
  (run_create v2_world no_options).2
  = Raise (NothingToDoError "@scope/name is already a V2 addon. Migration will stop.")
  ∧ (run_create v2_world no_options).1
    = [PackageJsonRead; FindRoot; GuessPackageManager; AnalyzeImports; CreateTmp].
Proof.
  assert ((run_create v2_world no_options).2
          = Raise (NothingToDoError "@scope/name is already a V2 addon. Migration will stop."))
    as Hraise by (vm_compute; reflexivity).
  split; [exact Hraise|].
  exact (proj1 (nothing_to_do_comes_last v2_world no_options _ Hraise)).
Defined.
